(** * hutoma-client: a shallow embedding of the request pipeline and of the
      object model, with the properties the specification states about them.

    The development follows the layout of the Python package:
    - [Helpers]   hutoma/helpers.py   (URL normalisation)
    - [Errors]    hutoma/errors.py    (exception taxonomy, error table)
    - [Internal]  hutoma/internal.py  (request preparation, status mapping)
    - [Client]    hutoma/__init__.py  (BaseHutoma: dispatch, retry, entities)
    - [Objects]   hutoma/objects.py   (HutomaObject and its subclasses)

    The package is Python 2 code ([settings.py] binds [config_parser] only
    there).  Python text is modelled by [string], read as the UTF-8 encoding
    of the text: the package only inspects ASCII delimiters, and a character
    made from a code point is its UTF-8 byte sequence.  *)

From stdpp Require Import base strings list gmap.
From Stdlib Require Import Ascii ZArith NArith QArith Lia.

Local Open Scope string_scope.
Set Warnings "-register-all".

(** ** Python string primitives used by the package *)

Module PyStr.

(** [s.endswith(suffix)] *)
Definition endswith (s suffix : string) : bool :=
  (String.length suffix <=? String.length s)%nat &&
  String.eqb
    (String.substring (String.length s - String.length suffix)
               (String.length suffix) s)
    suffix.

(** [s[:-n]] for a positive literal [n] *)
Definition drop_last (n : nat) (s : string) : string :=
  String.substring 0 (String.length s - n) s.

(** [needle in hay] on two strings: [needle] occurs as a contiguous
    substring of [hay]. *)
Fixpoint contains (needle hay : string) : bool :=
  String.prefix needle hay ||
  match hay with
  | EmptyString => false
  | String _ rest => contains needle rest
  end.

End PyStr.

(** ** hutoma/helpers.py *)

Module Helpers.
Import PyStr.

(** [normalize_url]: two independent tests, one after the other. *)
Definition normalize_url (url : string) : string :=
  let url := if endswith url ".json" then drop_last 5 url else url in
  let url := if endswith url "/" then drop_last 1 url else url in
  url.

End Helpers.


(** ** The Python values the package handles *)

Module Py.

(** The classes of hutoma/objects.py. *)
Inductive klass : Set :=
| HutomaObject | Editable | AIList | AI | Folder | Chat | Speak | Training.

Definition klass_eqb (a b : klass) : bool :=
  match a, b with
  | HutomaObject, HutomaObject | Editable, Editable | AIList, AIList
  | AI, AI | Folder, Folder | Chat, Chat | Speak, Speak
  | Training, Training => true
  | _, _ => false
  end.

(** Decoded JSON and the other values that travel through the package.
    A dictionary is the list of its items in iteration order (its keys are
    strings and pairwise distinct); [VObject] refers to an instance of a
    class of objects.py by its place in the store of the session state;
    [VSession] is the reference to the [BaseHutoma] instance; [VBound] is
    a method or builtin attribute found on a class. *)
Inductive value : Type :=
| VNone
| VBool (b : bool)
| VInt (z : Z)
| VFloat (q : Q)
| VStr (s : string)
| VList (l : list value)
| VTuple (l : list value)
| VDict (items : list (string * value))
| VSession
| VBound (name : string)
| VObject (ref : nat).

(** An instance of a class of objects.py: its class and its [__dict__]. *)
Record obj : Type := { cls : klass; attrs : list (string * value) }.

(** [bool(v)] *)
Definition truthy (v : value) : bool :=
  match v with
  | VNone => false
  | VBool b => b
  | VInt z => negb (z =? 0)%Z
  | VFloat q => negb (Qeq_bool q 0)
  | VStr s => negb (String.eqb s "")
  | VList l | VTuple l => negb (Nat.eqb (length l) 0)
  | VDict items => negb (Nat.eqb (length items) 0)
  | VSession | VBound _ | VObject _ => true
  end.

(** [isinstance(v, bool)] *)
Definition is_bool (v : value) : bool :=
  match v with VBool _ => true | _ => false end.

(** [isinstance(v, list)] *)
Definition is_list (v : value) : bool :=
  match v with VList _ => true | _ => false end.

(** [v == s] for a string literal [s]; an instance of objects.py answers
    False through [__eq__] (the literal is no HutomaObject). *)
Definition eq_str (v : value) (s : string) : bool :=
  match v with VStr t => String.eqb t s | _ => false end.

(** Dictionary primitives on item lists. *)
Fixpoint dict_get {A} (k : string) (d : list (string * A)) : option A :=
  match d with
  | [] => None
  | (k', v) :: rest => if String.eqb k' k then Some v else dict_get k rest
  end.

Definition dict_has {A} (k : string) (d : list (string * A)) : bool :=
  match dict_get k d with Some _ => true | None => false end.

(** [d[k] = v]: replaces the value of an existing key in place, appends a
    new key. *)
Fixpoint dict_set {A} (k : string) (v : A) (d : list (string * A))
  : list (string * A) :=
  match d with
  | [] => [(k, v)]
  | (k', v') :: rest =>
      if String.eqb k' k then (k, v) :: rest
      else (k', v') :: dict_set k v rest
  end.

(** [d.setdefault(k, v)] *)
Definition dict_setdefault {A} (k : string) (v : A) (d : list (string * A))
  : list (string * A) :=
  if dict_has k d then d else dict_set k v d.

(** [d.update(e)] *)
Definition dict_update {A} (d e : list (string * A)) : list (string * A) :=
  fold_left (fun acc kv => dict_set (fst kv) (snd kv) acc) e d.

(** [tuple(d.items())] as a value *)
Definition items_tuple (d : list (string * value)) : value :=
  VTuple (map (fun kv => VTuple [VStr (fst kv); snd kv]) d).

(** ASCII lower-casing, for the header lookup of a response. *)
Definition lower_ascii (c : Ascii.ascii) : Ascii.ascii :=
  let n := Ascii.nat_of_ascii c in
  if ((65 <=? n) && (n <=? 90))%nat then Ascii.ascii_of_nat (n + 32) else c.

Fixpoint lower (s : string) : string :=
  match s with
  | EmptyString => EmptyString
  | String c rest => String (lower_ascii c) (lower rest)
  end.

End Py.

(** ** The objects exchanged with the HTTP handler ([requests] library) *)

Module Http.
Import Py.

(** [requests.Response], as far as the package reads it.  [headers] is
    looked up without regard to case, as the library's mapping does. *)
Record response : Type := {
  status_code : Z;
  resp_url : string;
  resp_headers : list (string * string);
  resp_cookies : list (string * string);
  text : string;
}.

Definition header (name : string) (r : response) : option string :=
  dict_get (lower name)
           (map (fun kv => (lower (fst kv), snd kv)) (resp_headers r)).

(** [requests.Request] *)
Record request : Type := {
  method : string;
  url : string;
  headers : list (string * string);
  params : value;
  auth : value;
  cookies : list (string * string);
  data : value;
  files : value;
}.

Definition set_url (u : string) (r : request) : request :=
  {| method := method r; url := u; headers := headers r;
     params := params r; auth := auth r; cookies := cookies r;
     data := data r; files := files r |}.

(** What one call of [handler.request] receives: the prepared request
    and the keyword arguments. *)
Record handler_call : Type := {
  hc_request : request;
  hc_proxies : list (string * string);
  hc_timeout : Q;
  hc_verify : value;
  hc_cache_key : string * list value;
  hc_rate_domain : string;
  hc_rate_delay : Z;
  hc_cache_ignore : bool;
  hc_cache_timeout : Z;
}.

End Http.

(** ** hutoma/errors.py *)

Module Errors.
Import Py.

Inductive exc_class : Set :=
| HutomaException | ClientException | UserKeyRequired | ValidAIRequired
| HTTPException | Forbidden | NotFound | RedirectException
| APIException | ExceptionList | BadUserKey | NoAIFound
| RateLimitExceeded.

(** The base class of each class; [None] is the builtin [Exception]. *)
Definition base (c : exc_class) : option exc_class :=
  match c with
  | HutomaException => None
  | ClientException => Some HutomaException
  | UserKeyRequired => Some ClientException
  | ValidAIRequired => Some ClientException
  | HTTPException => Some HutomaException
  | Forbidden => Some HTTPException
  | NotFound => Some HTTPException
  | RedirectException => Some HutomaException
  | APIException => Some HutomaException
  | ExceptionList => Some APIException
  | BadUserKey => Some APIException
  | NoAIFound => Some APIException
  | RateLimitExceeded => Some APIException
  end.

Definition exc_class_eqb (a b : exc_class) : bool :=
  match a, b with
  | HutomaException, HutomaException | ClientException, ClientException
  | UserKeyRequired, UserKeyRequired | ValidAIRequired, ValidAIRequired
  | HTTPException, HTTPException | Forbidden, Forbidden
  | NotFound, NotFound | RedirectException, RedirectException
  | APIException, APIException | ExceptionList, ExceptionList
  | BadUserKey, BadUserKey | NoAIFound, NoAIFound
  | RateLimitExceeded, RateLimitExceeded => true
  | _, _ => false
  end.

(** The class and its bases, nearest first.  No chain of the module is
    longer than three classes. *)
Fixpoint mro_upto (n : nat) (c : exc_class) : list exc_class :=
  c :: match n, base c with
       | S n', Some b => mro_upto n' b
       | _, _ => []
       end.

Definition mro : exc_class -> list exc_class := mro_upto 3.

(** [issubclass(c, d)] *)
Definition issubclass (c d : exc_class) : bool :=
  existsb (exc_class_eqb d) (mro c).

(** The [ERROR_TYPE] attribute a class body declares itself. *)
Definition own_ERROR_TYPE (c : exc_class) : option string :=
  match c with
  | BadUserKey => Some "BAD_USER_KEY"
  | NoAIFound => Some "NO_AI_FOUND"
  | RateLimitExceeded => Some "RATE_LIMIT"
  | _ => None
  end.

(** [getattr(c, 'ERROR_TYPE')], through the bases. *)
Definition ERROR_TYPE (c : exc_class) : option string :=
  head (omap own_ERROR_TYPE (mro c)).

(** The classes among the members of the module, in the order of
    [inspect.getmembers] (sorted by name). *)
Definition module_classes : list exc_class :=
  [ APIException; BadUserKey; ClientException; ExceptionList; Forbidden;
    HTTPException; HutomaException; NoAIFound; NotFound;
    RateLimitExceeded; RedirectException; UserKeyRequired;
    ValidAIRequired ].

(** [_build_error_mapping]: [predicate] keeps the classes that have an
    [ERROR_TYPE]; the loop stores each under it. *)
Definition predicate (obj : exc_class) : bool :=
  match ERROR_TYPE obj with Some _ => true | None => false end.

Definition _build_error_mapping : gmap string exc_class :=
  foldl (fun tmp obj =>
           match ERROR_TYPE obj with
           | Some t => <[t := obj]> tmp
           | None => tmp
           end)
        ∅ (filter (fun obj => predicate obj = true) module_classes).

Definition ERROR_MAPPING : gmap string exc_class := _build_error_mapping.

(** Instances, with the attributes each [__init__] sets. *)
Inductive instance : Type :=
| BaseError (args : list value)
| ClientError (c : exc_class) (message : string)
| HTTPError (c : exc_class) (_raw : Http.response) (message : string)
| RedirectError (request_url response_url message : string)
| APIError (c : exc_class) (error_type message field response : value)
| RateLimitError (error_type message field response sleep_time : value)
| ExceptionListError (errors : list instance).

Definition class_of (i : instance) : exc_class :=
  match i with
  | BaseError _ => HutomaException
  | ClientError c _ | HTTPError c _ _ | APIError c _ _ _ _ => c
  | RedirectError _ _ _ => RedirectException
  | RateLimitError _ _ _ _ _ => RateLimitExceeded
  | ExceptionListError _ => ExceptionList
  end.

(** [exc.sleep_time] *)
Definition sleep_time (i : instance) : option value :=
  match i with
  | RateLimitError _ _ _ _ s => Some s
  | _ => None
  end.

(** What a computation can raise: the builtin exceptions the package runs
    into, its own exceptions, and those of the handler. *)
Inductive exn : Type :=
| KeyError (key : string)
| TypeError (what : string)
| AttributeError (attr : string)
| ValueError (what : string)
| AssertionError
| RecursionError
| Hutoma (i : instance)
| Transport (what : string).

(** A value, an exception, or a loop that has not ended within the
    steps granted to it. *)
Inductive outcome (A : Type) : Type :=
| Ok (a : A)
| Raise (e : exn)
| Diverge.
Arguments Ok {A} a.
Arguments Raise {A} e.
Arguments Diverge {A}.

(** [v[key]] for a string key *)
Definition getitem (v : value) (key : string) : outcome value :=
  match v with
  | VDict items =>
      match dict_get key items with
      | Some x => Ok x
      | None => Raise (KeyError key)
      end
  | _ => Raise (TypeError "subscript")
  end.

(** [x in container] for a string [x] *)
Definition contains (x : string) (container : value) : outcome bool :=
  match container with
  | VStr s => Ok (PyStr.contains x s)
  | VList l | VTuple l => Ok (existsb (fun e => eq_str e x) l)
  | VDict items => Ok (dict_has x items)
  | _ => Raise (TypeError "argument is not iterable")
  end.

(** [ClientException.__init__] *)
Definition new_ClientException (message : string) : instance :=
  ClientError ClientException
    (if String.eqb message "" then "Clientside error" else message).

(** [UserKeyRequired.__init__] *)
Definition new_UserKeyRequired (function message : string) : instance :=
  ClientError UserKeyRequired
    (if String.eqb message "" then function +:+ " requires a user_key"
     else message).

(** [ValidAIRequired.__init__] *)
Definition new_ValidAIRequired (function : string) : instance :=
  ClientError ValidAIRequired (function +:+ " requires a AI").

(** [HTTPException.__init__], inherited by [Forbidden] and [NotFound] *)
Definition new_HTTPException (c : exc_class) (_raw : Http.response)
    (message : string) : instance :=
  HTTPError c _raw (if String.eqb message "" then "HTTP error" else message).

(** [RedirectException.__init__] *)
Definition new_RedirectException (request_url response_url message : string)
  : instance :=
  RedirectError request_url response_url
    (if String.eqb message ""
     then "Unexpected redirect from " +:+ request_url +:+ " to "
            +:+ response_url
     else message).

(** A class of the table called as
    [cls(error_type, message, field, response)]: [APIException.__init__],
    which [BadUserKey] and [NoAIFound] inherit, and
    [RateLimitExceeded.__init__], which reads [response['ratelimit']]
    after it.  The other classes of the module take fewer arguments. *)
Definition new_api_error (c : exc_class)
    (error_type message field response : value) : outcome instance :=
  match c with
  | APIException | BadUserKey | NoAIFound =>
      Ok (APIError c error_type message field response)
  | RateLimitExceeded =>
      match getitem response "ratelimit" with
      | Ok s => Ok (RateLimitError error_type message field response s)
      | Raise e => Raise e
      | Diverge => Diverge
      end
  | HutomaException =>
      Ok (BaseError [error_type; message; field; response])
  | _ => Raise (TypeError "__init__ takes fewer arguments")
  end.

(** [ExceptionList.__init__] *)
Definition new_ExceptionList (errors : list instance) : instance :=
  ExceptionListError errors.

(** [except errors.HTTPException as error]: the raw response of an
    exception of that family. *)
Definition as_HTTPException (e : exn) : option Http.response :=
  match e with
  | Hutoma (HTTPError c raw _) =>
      if issubclass c HTTPException then Some raw else None
  | _ => None
  end.

End Errors.

(** ** Effects: session state, exceptions and unbounded loops *)

Module Eff.
Import Errors.

(** A computation over a state [S]. *)
Definition M (S A : Type) : Type := S -> outcome A * S.

Definition ret {S A} (a : A) : M S A := fun s => (Ok a, s).

Definition bind {S A B} (c : M S A) (k : A -> M S B) : M S B :=
  fun s =>
    match c s with
    | (Ok a, s') => k a s'
    | (Raise e, s') => (Raise e, s')
    | (Diverge, s') => (Diverge, s')
    end.

Definition raise {S A} (e : exn) : M S A := fun s => (Raise e, s).
Definition diverge {S A} : M S A := fun s => (Diverge, s).
Definition get {S} : M S S := fun s => (Ok s, s).
Definition put {S} (s : S) : M S unit := fun _ => (Ok tt, s).
Definition modify {S} (f : S -> S) : M S unit := fun s => (Ok tt, f s).

(** A pure step that may raise. *)
Definition lift {S A} (o : outcome A) : M S A := fun s => (o, s).

(** [try: c except Exception as e: handler(e)] *)
Definition try_except {S A} (c : M S A) (handler : exn -> M S A) : M S A :=
  fun s =>
    match c s with
    | (Raise e, s') => handler e s'
    | other => other
    end.

(** [for x in xs: body(x)] *)
Fixpoint for_each {S A} (xs : list A) (body : A -> M S unit) : M S unit :=
  match xs with
  | [] => ret tt
  | x :: rest => bind (body x) (fun _ => for_each rest body)
  end.

Module Notations.
Notation "x <- c ;; k" := (bind c (fun x => k))
  (at level 100, c at next level, right associativity).
Notation "c ;; k" := (bind c (fun _ => k))
  (at level 100, right associativity).
End Notations.

End Eff.

(** ** Configuration and session ([Config], [BaseHutoma.__init__]) *)

Module Session.
Import Py.

(** The attributes [Config.__init__] sets from the site profile.  The two
    flags hold what [config_boolean] returned. *)
Record Config : Type := {
  api_domain : string;
  api_request_delay : Q;
  cache_timeout : Q;
  log_requests : Z;
  user_key : option string;
  http_proxy : option string;
  https_proxy : option string;
  validate_certs : value;
  store_json_result : value;
  timeout : Q;
}.

Definition api_url (c : Config) : string := "https://" +:+ api_domain c.

Definition API_PATHS : list (string * string) :=
  [ ("ai_list", "api/v1/ai/");
    ("ai", "api/v1/ai/{aiid}");
    ("folder", "api/v1/ai/{aiid}/{folder}");
    ("chat", "api/v1/{aiid}/chat");
    ("speak", "api/v1/{aiid}/speak");
    ("training", "api/v1/{aiid}/training") ].

Definition by_kind : list (string * klass) :=
  [ ("ai_list", AIList); ("ai", AI); ("folder", Folder); ("chat", Chat);
    ("training", Training) ].

(** [dict((value, key) for (key, value) in by_kind.items())] *)
Definition by_object : list (klass * string) :=
  map (fun kv => (snd kv, fst kv)) by_kind.

Fixpoint by_object_get (c : klass) (d : list (klass * string))
  : option string :=
  match d with
  | [] => None
  | (c', k) :: rest => if klass_eqb c' c then Some k else by_object_get c rest
  end.

(** [int(x)] of a float: truncation towards zero. *)
Definition int_of (x : Q) : Z := Z.quot (Qnum x) (Zpos (Qden x)).

(** The mutable part of a [BaseHutoma] instance and of what it talks to:
    cookie store, modification hash, the state of the handler, what was
    written to stderr, the warnings issued, and the store of the
    instances of objects.py ([VObject n] is the instance at place [n]).
    [wire] records the calls made to [handler.request], oldest first. *)
Record world (H : Type) : Type := {
  http_headers : list (string * string);
  http_cookies : list (string * string);
  modhash : value;
  _request_url : option string;
  handler_state : H;
  wire : list Http.handler_call;
  stderr : list string;
  warnings : list string;
  heap : list obj;
}.
Arguments http_headers {H} _.
Arguments http_cookies {H} _.
Arguments modhash {H} _.
Arguments _request_url {H} _.
Arguments handler_state {H} _.
Arguments wire {H} _.
Arguments stderr {H} _.
Arguments warnings {H} _.
Arguments heap {H} _.

Section Updates.
Context {H : Type}.

Definition write_stderr (line : string) (w : world H) : world H :=
  {| http_headers := http_headers w; http_cookies := http_cookies w;
     modhash := modhash w; _request_url := _request_url w;
     handler_state := handler_state w; wire := wire w;
     stderr := stderr w ++ [line]; warnings := warnings w;
     heap := heap w |}.

Definition warn_explicit (msg : string) (w : world H) : world H :=
  {| http_headers := http_headers w; http_cookies := http_cookies w;
     modhash := modhash w; _request_url := _request_url w;
     handler_state := handler_state w; wire := wire w;
     stderr := stderr w; warnings := warnings w ++ [msg];
     heap := heap w |}.

Definition update_cookies (cs : list (string * string)) (w : world H)
  : world H :=
  {| http_headers := http_headers w;
     http_cookies := dict_update (http_cookies w) cs;
     modhash := modhash w; _request_url := _request_url w;
     handler_state := handler_state w; wire := wire w;
     stderr := stderr w; warnings := warnings w; heap := heap w |}.

Definition set_modhash (m : value) (w : world H) : world H :=
  {| http_headers := http_headers w; http_cookies := http_cookies w;
     modhash := m; _request_url := _request_url w;
     handler_state := handler_state w; wire := wire w;
     stderr := stderr w; warnings := warnings w; heap := heap w |}.

Definition set_request_url (u : option string) (w : world H) : world H :=
  {| http_headers := http_headers w; http_cookies := http_cookies w;
     modhash := modhash w; _request_url := u;
     handler_state := handler_state w; wire := wire w;
     stderr := stderr w; warnings := warnings w; heap := heap w |}.

Definition sent (call : Http.handler_call) (h : H) (w : world H)
  : world H :=
  {| http_headers := http_headers w; http_cookies := http_cookies w;
     modhash := modhash w; _request_url := _request_url w;
     handler_state := h; wire := wire w ++ [call]; stderr := stderr w;
     warnings := warnings w; heap := heap w |}.

Definition set_heap (hp : list obj) (w : world H) : world H :=
  {| http_headers := http_headers w; http_cookies := http_cookies w;
     modhash := modhash w; _request_url := _request_url w;
     handler_state := handler_state w; wire := wire w;
     stderr := stderr w; warnings := warnings w; heap := hp |}.

End Updates.

(** [self.http.proxies] as [__init__] leaves it. *)
Definition http_proxies (c : Config) : list (string * string) :=
  match http_proxy c with Some p => [("http", p)] | None => [] end ++
  match https_proxy c with Some p => [("https", p)] | None => [] end.

End Session.

(** ** hutoma/internal.py *)

Module Internal.
Import Py Http Errors Eff Eff.Notations Session.

(** [requests.Response.raise_for_status] raises [HTTPError] for the
    client and server error ranges and for nothing else. *)
Definition raise_for_status_raises (r : response) : bool :=
  ((400 <=? status_code r) && (status_code r <? 600))%Z.

(** [_raise_response_exceptions] *)
Definition _raise_response_exceptions (r : response) : outcome unit :=
  if (status_code r =? 403)%Z then
    Raise (Hutoma (new_HTTPException Forbidden r ""))
  else if (status_code r =? 404)%Z then
    Raise (Hutoma (new_HTTPException NotFound r ""))
  else if raise_for_status_raises r then
    Raise (Hutoma (new_HTTPException HTTPException r ""))
  else Ok tt.

Section WithUrljoin.
(** [requests.compat.urljoin], the reference resolution of the
    standard library. *)
Variable urljoin : string -> string -> string.

(** [_raise_redirect_exceptions]: the new URL, or [None]. *)
Definition _raise_redirect_exceptions (r : response)
  : outcome (option string) :=
  if negb (existsb (Z.eqb (status_code r)) [301; 302; 307]%Z) then Ok None
  else match header "location" r with
       | Some location => Ok (Some (urljoin (resp_url r) location))
       | None => Raise (KeyError "location")
       end.
End WithUrljoin.

Section WithSession.
Context {H : Type}.
(** [str.format] of one value, as the log lines and warnings use it. *)
Variable py_format : value -> string.
Variable cfg : Config.

Definition when {S} (b : bool) (c : M S unit) : M S unit :=
  if b then c else ret tt.

(** [_prepare_request].  [method] is [""] when the caller gave none.
    The second component is the caller's [data] after the call: a
    dictionary passed in is filled in place. *)
Definition _prepare_request (url : string)
    (params data auth files : value) (method : string)
  : M (world H) (request * value) :=
  w <- get;;
  let headers := dict_update [] (http_headers w) in
  let method :=
    if negb (String.eqb method "") then method
    else if truthy data || truthy files then "POST"
    else "GET" in
  when (1 <=? log_requests cfg)%Z
       (modify (write_stderr (method +:+ ": " +:+ url +:+ "
")));;
  when (2 <=? log_requests cfg)%Z
       (when (truthy params)
          (modify (write_stderr
                     ("params: " +:+ py_format params +:+ "
")));;
        when (truthy data)
          (modify (write_stderr ("data: " +:+ py_format data +:+ "
")));;
        when (truthy auth)
          (modify (write_stderr ("auth: " +:+ py_format auth +:+ "
"))));;
  (* Request.__init__ turns a missing params into {} and leaves data
     and files as empty lists *)
  let request :=
    {| method := method; url := url; headers := headers;
       params := match params with VNone => VDict [] | _ => params end;
       auth := auth; cookies := http_cookies w;
       data := VList []; files := VList [] |} in
  if String.eqb method "GET" then ret (request, data)
  else
    let local := match data with VBool true => VDict [] | _ => data end in
    match local with
    | VDict d =>
        let d :=
          if negb (truthy auth) then
            let d := dict_setdefault "api_type" (VStr "json") d in
            if truthy (modhash w)
            then dict_setdefault "uh" (modhash w) d else d
          else d in
        ret ({| method := method; url := url; headers := headers;
                params := Http.params request; auth := auth;
                cookies := http_cookies w;
                data := VDict d; files := files |},
             match data with VDict _ => VDict d | _ => data end)
    | _ =>
        ret ({| method := method; url := url;
                headers :=
                  dict_setdefault "Content-Type" "application/json"
                                  headers;
                params := Http.params request; auth := auth;
                cookies := http_cookies w;
                data := local; files := files |},
             data)
    end.
End WithSession.

End Internal.

(** ** hutoma/__init__.py: the request pipeline of [BaseHutoma] *)

Module Dispatch.
Import Py Http Errors Eff Eff.Notations Session Internal.

Definition RETRY_CODES : list Z := [502; 503; 504]%Z.

(** [html_entities.name2codepoint] of the standard library. *)
Definition name2codepoint_items : list (string * N) :=
  [
    ("AElig", 198); ("Aacute", 193); ("Acirc", 194); ("Agrave", 192);
    ("Alpha", 913); ("Aring", 197); ("Atilde", 195); ("Auml", 196);
    ("Beta", 914); ("Ccedil", 199); ("Chi", 935); ("Dagger", 8225);
    ("Delta", 916); ("ETH", 208); ("Eacute", 201); ("Ecirc", 202);
    ("Egrave", 200); ("Epsilon", 917); ("Eta", 919); ("Euml", 203);
    ("Gamma", 915); ("Iacute", 205); ("Icirc", 206); ("Igrave", 204);
    ("Iota", 921); ("Iuml", 207); ("Kappa", 922); ("Lambda", 923);
    ("Mu", 924); ("Ntilde", 209); ("Nu", 925); ("OElig", 338);
    ("Oacute", 211); ("Ocirc", 212); ("Ograve", 210); ("Omega", 937);
    ("Omicron", 927); ("Oslash", 216); ("Otilde", 213); ("Ouml", 214);
    ("Phi", 934); ("Pi", 928); ("Prime", 8243); ("Psi", 936);
    ("Rho", 929); ("Scaron", 352); ("Sigma", 931); ("THORN", 222);
    ("Tau", 932); ("Theta", 920); ("Uacute", 218); ("Ucirc", 219);
    ("Ugrave", 217); ("Upsilon", 933); ("Uuml", 220); ("Xi", 926);
    ("Yacute", 221); ("Yuml", 376); ("Zeta", 918); ("aacute", 225);
    ("acirc", 226); ("acute", 180); ("aelig", 230); ("agrave", 224);
    ("alefsym", 8501); ("alpha", 945); ("amp", 38); ("and", 8743);
    ("ang", 8736); ("aring", 229); ("asymp", 8776); ("atilde", 227);
    ("auml", 228); ("bdquo", 8222); ("beta", 946); ("brvbar", 166);
    ("bull", 8226); ("cap", 8745); ("ccedil", 231); ("cedil", 184);
    ("cent", 162); ("chi", 967); ("circ", 710); ("clubs", 9827);
    ("cong", 8773); ("copy", 169); ("crarr", 8629); ("cup", 8746);
    ("curren", 164); ("dArr", 8659); ("dagger", 8224); ("darr", 8595);
    ("deg", 176); ("delta", 948); ("diams", 9830); ("divide", 247);
    ("eacute", 233); ("ecirc", 234); ("egrave", 232); ("empty", 8709);
    ("emsp", 8195); ("ensp", 8194); ("epsilon", 949); ("equiv", 8801);
    ("eta", 951); ("eth", 240); ("euml", 235); ("euro", 8364);
    ("exist", 8707); ("fnof", 402); ("forall", 8704); ("frac12", 189);
    ("frac14", 188); ("frac34", 190); ("frasl", 8260); ("gamma", 947);
    ("ge", 8805); ("gt", 62); ("hArr", 8660); ("harr", 8596);
    ("hearts", 9829); ("hellip", 8230); ("iacute", 237); ("icirc", 238);
    ("iexcl", 161); ("igrave", 236); ("image", 8465); ("infin", 8734);
    ("int", 8747); ("iota", 953); ("iquest", 191); ("isin", 8712);
    ("iuml", 239); ("kappa", 954); ("lArr", 8656); ("lambda", 955);
    ("lang", 9001); ("laquo", 171); ("larr", 8592); ("lceil", 8968);
    ("ldquo", 8220); ("le", 8804); ("lfloor", 8970); ("lowast", 8727);
    ("loz", 9674); ("lrm", 8206); ("lsaquo", 8249); ("lsquo", 8216);
    ("lt", 60); ("macr", 175); ("mdash", 8212); ("micro", 181);
    ("middot", 183); ("minus", 8722); ("mu", 956); ("nabla", 8711);
    ("nbsp", 160); ("ndash", 8211); ("ne", 8800); ("ni", 8715);
    ("not", 172); ("notin", 8713); ("nsub", 8836); ("ntilde", 241);
    ("nu", 957); ("oacute", 243); ("ocirc", 244); ("oelig", 339);
    ("ograve", 242); ("oline", 8254); ("omega", 969); ("omicron", 959);
    ("oplus", 8853); ("or", 8744); ("ordf", 170); ("ordm", 186);
    ("oslash", 248); ("otilde", 245); ("otimes", 8855); ("ouml", 246);
    ("para", 182); ("part", 8706); ("permil", 8240); ("perp", 8869);
    ("phi", 966); ("pi", 960); ("piv", 982); ("plusmn", 177);
    ("pound", 163); ("prime", 8242); ("prod", 8719); ("prop", 8733);
    ("psi", 968); ("quot", 34); ("rArr", 8658); ("radic", 8730);
    ("rang", 9002); ("raquo", 187); ("rarr", 8594); ("rceil", 8969);
    ("rdquo", 8221); ("real", 8476); ("reg", 174); ("rfloor", 8971);
    ("rho", 961); ("rlm", 8207); ("rsaquo", 8250); ("rsquo", 8217);
    ("sbquo", 8218); ("scaron", 353); ("sdot", 8901); ("sect", 167);
    ("shy", 173); ("sigma", 963); ("sigmaf", 962); ("sim", 8764);
    ("spades", 9824); ("sub", 8834); ("sube", 8838); ("sum", 8721);
    ("sup", 8835); ("sup1", 185); ("sup2", 178); ("sup3", 179);
    ("supe", 8839); ("szlig", 223); ("tau", 964); ("there4", 8756);
    ("theta", 952); ("thetasym", 977); ("thinsp", 8201); ("thorn", 254);
    ("tilde", 732); ("times", 215); ("trade", 8482); ("uArr", 8657);
    ("uacute", 250); ("uarr", 8593); ("ucirc", 251); ("ugrave", 249);
    ("uml", 168); ("upsih", 978); ("upsilon", 965); ("uuml", 252);
    ("weierp", 8472); ("xi", 958); ("yacute", 253); ("yen", 165);
    ("yuml", 255); ("zeta", 950); ("zwj", 8205); ("zwnj", 8204) ]%N.

Definition name2codepoint : gmap string N :=
  list_to_map name2codepoint_items.

(** [CHR]: the character of a code point, in UTF-8. *)
Definition byte (n : N) : string := String (Ascii.ascii_of_N n) "".

Definition CHR (cp : N) : string :=
  (if cp <? 128 then byte cp
   else if cp <? 2048 then
     byte (192 + cp / 64) +:+ byte (128 + cp mod 64)
   else if cp <? 65536 then
     byte (224 + cp / 4096) +:+ byte (128 + (cp / 64) mod 64)
       +:+ byte (128 + cp mod 64)
   else
     byte (240 + cp / 262144) +:+ byte (128 + (cp / 4096) mod 64)
       +:+ byte (128 + (cp / 64) mod 64) +:+ byte (128 + cp mod 64))%N.

(** [decode]: the replacement function given to [re.sub]; its argument is
    [match.group(1)]. *)
Definition decode (group1 : string) : outcome string :=
  match name2codepoint !! group1 with
  | Some cp => Ok (CHR cp)
  | None => Raise (KeyError group1)
  end.

(** The pattern ['&([^;]+);'].  [span_group s] is the longest prefix of
    [s] without [;] and what follows it. *)
Fixpoint span_group (s : string) : string * string :=
  match s with
  | EmptyString => (EmptyString, EmptyString)
  | String c rest =>
      if Ascii.eqb c ";"%char then (EmptyString, s)
      else let p := span_group rest in (String c (fst p), snd p)
  end.

(** A match of the pattern at the head of [s]: group 1 and the text after
    the match. *)
Definition match_entity (s : string) : option (string * string) :=
  match s with
  | String c rest =>
      if Ascii.eqb c "&"%char then
        match span_group rest with
        | (String g gs, String _ after) => Some (String g gs, after)
        | _ => None
        end
      else None
  | EmptyString => None
  end.

(** [re.sub('&([^;]+);', repl, s)]: leftmost matches, none overlapping,
    each replaced by what [repl] returns for its group; the first
    exception of [repl] ends the substitution.  [steps] bounds the number
    of positions visited. *)
Fixpoint re_sub_from (steps : nat) (repl : string -> outcome string)
    (s : string) : outcome string :=
  match s with
  | EmptyString => Ok EmptyString
  | String c rest =>
      match steps with
      | O => Diverge
      | S steps' =>
          match match_entity s with
          | Some (group1, after) =>
              match repl group1 with
              | Ok x =>
                  match re_sub_from steps' repl after with
                  | Ok y => Ok (x +:+ y)
                  | other => other
                  end
              | other => other
              end
          | None =>
              match re_sub_from steps' repl rest with
              | Ok y => Ok (String c y)
              | other => other
              end
          end
      end
  end.

Definition re_sub (repl : string -> outcome string) (s : string)
  : outcome string :=
  re_sub_from (String.length s) repl s.

(** What [_request] returns: the response object or the decoded text. *)
Inductive body : Type :=
| RawResponse (r : response)
| Text (s : string).

Section WithHandler.
Context {H : Type}.
(** The pluggable handler: [handler.request(request=..., **kwargs)]. *)
Variable handler_request : handler_call -> H -> outcome response * H.
Variable urljoin : string -> string -> string.
(** [json.loads] without a hook; [None] is its [ValueError]. *)
Variable json_loads : string -> option value.
Variable py_format : value -> string.
Variable cfg : Config.

(** The locals of [_request] that its inner functions share: the
    session and the [Request] object, whose [url] is assigned in
    [handle_redirect]. *)
Definition frame : Type := world H * request.

Definition in_session {A} (c : M (world H) A) : M frame A :=
  fun f => let r := c (fst f) in (fst r, (snd r, snd f)).

Definition call_handler (call : handler_call) : M (world H) response :=
  fun w =>
    let r := handler_request call (handler_state w) in
    (fst r, sent call (snd r) w).

(** [build_key_items] *)
Definition build_key_items (url : string)
    (params data auth files : value) (method : string)
    (raw_response : bool)
  : M (world H) (request * list value * (bool * Z * Z)) :=
  p <- _prepare_request py_format cfg url params data auth files method;;
  let request := fst p in
  let data := snd p in
  let key_item (key_value : value) : value :=
    match key_value with
    | VDict d => items_tuple d
    | _ => key_value
    end in
  let key_items :=
    [ key_item params; key_item data;
      VTuple (map (fun kv => VTuple [VStr (fst kv); VStr (snd kv)])
                  (cookies request));
      key_item auth ] in
  ret (request, key_items,
       (truthy files || raw_response,
        int_of (api_request_delay cfg), int_of (cache_timeout cfg))).

Section Request.
Variable timeout : Q.
Variable key_items : list value.
Variable kwargs : bool * Z * Z.

(** The arguments of [self.handler.request(...)] for the request
    as it stands. *)
Definition make_call (request : Http.request) : handler_call :=
  {| hc_request := request;
     hc_proxies := http_proxies cfg;
     hc_timeout := timeout;
     hc_verify := validate_certs cfg;
     hc_cache_key :=
       (Helpers.normalize_url (Http.url request), key_items);
     hc_rate_domain := api_domain cfg;
     hc_rate_delay := snd (fst kwargs);
     hc_cache_ignore := fst (fst kwargs);
     hc_cache_timeout := snd kwargs |}.

(** The log line of [handle_redirect]. *)
Definition log_status (r : Http.response) (w : world H) : world H :=
  if (2 <=? log_requests cfg)%Z then
    write_stderr ("status: " +:+ py_format (VInt (status_code r)) +:+ "
") w
  else w.

(** The body of the [while url:] loop of [handle_redirect], repeated
    at most [fuel] times.  [url] is [None] once a response was no
    redirect. *)
Fixpoint redirect_loop (fuel : nat) (url : option string)
    (response : option Http.response)
  : M frame (option Http.response) :=
  match url with
  | None => ret response
  | Some u =>
      if String.eqb u "" then ret response
      else
        match fuel with
        | O => diverge
        | S fuel' =>
            modify (fun f => (fst f, set_url u (snd f)));;
            f <- get;;
            let request := snd f in
            response <- in_session (call_handler (make_call request));;
            in_session (modify (log_status response));;
            url <- lift (_raise_redirect_exceptions urljoin response);;
            (* assert url != request.url *)
            match url with
            | Some new_url =>
                if String.eqb new_url (Http.url request)
                then raise AssertionError
                else redirect_loop fuel' url (Some response)
            | None => redirect_loop fuel' url (Some response)
            end
        end
  end.

(** [handle_redirect] *)
Definition handle_redirect (fuel : nat)
  : M frame (option Http.response) :=
  f <- get;;
  redirect_loop fuel (Some (Http.url (snd f))) None.

(** The body of the [try] of [_request]. *)
Definition attempt (fuel : nat) (raw_response : bool) : M frame body :=
  response <- handle_redirect fuel;;
  match response with
  | None => raise (AttributeError "status_code")
  | Some response =>
      lift (_raise_response_exceptions response);;
      in_session (modify (update_cookies (resp_cookies response)));;
      if raw_response then ret (RawResponse response)
      else s <- lift (re_sub decode (text response));; ret (Text s)
  end.

(** The [while True:] loop of [_request].  [left] is
    [remaining_attempts - 1]: the handler decrements first and
    re-raises when the code is not to be retried or nothing is
    left. *)
Fixpoint retry_loop (fuel : nat) (raw_response : bool) (left : nat)
  : M frame body :=
  try_except (attempt fuel raw_response)
    (fun error =>
       match as_HTTPException error with
       | Some _raw =>
           match left with
           | S left' =>
               if existsb (Z.eqb (status_code _raw)) RETRY_CODES
               then retry_loop fuel raw_response left'
               else raise error
           | O => raise error
           end
       | None => raise error
       end).
End Request.

(** [BaseHutoma._request].  [fuel] bounds the redirects followed in one
    attempt. *)
Definition _request (fuel : nat) (url : string)
    (params data files auth : value) (timeout : option Q)
    (raw_response retry_on_error : bool) (method : string)
  : M (world H) body :=
  let timeout :=
    match timeout with None => Session.timeout cfg | Some t => t end in
  b <- build_key_items url params data auth files method raw_response;;
  let remaining_attempts := if retry_on_error then 3%nat else 1%nat in
  fun w =>
    let r := retry_loop timeout (snd (fst b)) (snd b) fuel raw_response
                        (remaining_attempts - 1) (w, fst (fst b)) in
    (fst r, fst (snd r)).

(** [BaseHutoma.request] *)
Definition request (fuel : nat) (url : string) (params data : value)
    (retry_on_error : bool) (method : string) : M (world H) body :=
  _request fuel url params data VNone VNone None true retry_on_error
           method.

(** [json.loads(s, object_hook=hook)]: the hook is called on every
    decoded object, the inner ones first, and its result takes the
    place of the object. *)
Fixpoint apply_hook (hook : value -> M (world H) value) (v : value)
  : M (world H) value :=
  match v with
  | VList l =>
      l' <- (fix each (l : list value) : M (world H) (list value) :=
               match l with
               | [] => ret []
               | x :: rest =>
                   x' <- apply_hook hook x;;
                   rest' <- each rest;;
                   ret (x' :: rest')
               end) l;;
      ret (VList l')
  | VDict items =>
      items' <- (fix each (l : list (string * value))
                   : M (world H) (list (string * value)) :=
                   match l with
                   | [] => ret []
                   | (k, x) :: rest =>
                       x' <- apply_hook hook x;;
                       rest' <- each rest;;
                       ret ((k, x') :: rest')
                   end) items;;
      hook (VDict items')
  | _ => ret v
  end.

Definition loads (hook : option (value -> M (world H) value))
    (s : string) : M (world H) value :=
  match json_loads s with
  | None => raise (ValueError "No JSON object could be decoded")
  | Some v =>
      match hook with
      | Some h => apply_hook h v
      | None => ret v
      end
  end.

(** [BaseHutoma.request_json]; [hook] is [self._json_hutoma_objecter]
    when [as_objects] holds and [None] otherwise. *)
Definition request_json_with
    (hook : option (value -> M (world H) value))
    (fuel : nat) (url : string) (params data : value)
    (retry_on_error : bool) (method : string) : M (world H) value :=
  b <- _request fuel url params data VNone VNone None false
                retry_on_error method;;
  modify (set_request_url (Some url));;
  match b with
  | Text response =>
      if String.eqb response "" then ret (VStr response)
      else
        data <- loads hook response;;
        modify (set_request_url None);;
        match data with
        | VDict d =>
            match dict_get "data" d with
            | Some inner =>
                has <- lift (contains "modhash" inner);;
                (if has : bool then
                   m <- lift (getitem inner "modhash");;
                   modify (set_modhash m)
                 else ret tt);;
                ret data
            | None => ret data
            end
        | _ => ret data
        end
  | RawResponse _ => raise (TypeError "expected string or buffer")
  end.

End WithHandler.

End Dispatch.

(** ** hutoma/objects.py *)

Module Objects.
Import Py Http Errors Eff Eff.Notations Session Internal Dispatch.

(** The module constant is a string, not a tuple: [('AIID')]. *)
Definition HUTOMA_KEYS : value := VStr "AIID".

(** The attributes every new-style class inherits from [object], and
    those a class statement adds. *)
Definition object_attrs : list string :=
  [ "__class__"; "__delattr__"; "__doc__"; "__format__";
    "__getattribute__"; "__hash__"; "__init__"; "__new__"; "__reduce__";
    "__reduce_ex__"; "__repr__"; "__setattr__"; "__sizeof__"; "__str__";
    "__subclasshook__"; "__dict__"; "__module__"; "__weakref__" ].

Definition HutomaObject_attrs : list string :=
  [ "from_api_response"; "__init__"; "__eq__"; "__getattr__";
    "__getstate__"; "__ne__"; "__reduce_ex__"; "__setattr__"; "__str__";
    "_get_json_dict"; "_populate"; "_post_populate"; "fullname" ].

Definition Editable_attrs : list string := [ "delete"; "edit" ].

Definition is_editable (c : klass) : bool :=
  match c with Editable | AI | Folder => true | _ => false end.

(** [name] is found on the class of an instance or on one of its bases. *)
Definition class_attr (c : klass) (name : string) : bool :=
  existsb (String.eqb name)
          (object_attrs ++ HutomaObject_attrs
             ++ if is_editable c then Editable_attrs else []).

(** The name of a class, for the messages. *)
Definition klass_name (c : klass) : string :=
  match c with
  | HutomaObject => "HutomaObject" | Editable => "Editable"
  | AIList => "AIList" | AI => "AI" | Folder => "Folder"
  | Chat => "Chat" | Speak => "Speak" | Training => "Training"
  end.

(** The attributes of a [BaseHutoma] or [HutomaUserKey] instance. *)
Definition session_attrs : list string :=
  [ "config"; "handler"; "http"; "modhash"; "RETRY_CODES";
    "update_checked"; "_request"; "_json_hutoma_objecter"; "evict";
    "get_content"; "request"; "request_json"; "_unique_count";
    "user_key"; "get_ai_list"; "get_ai" ] ++ object_attrs.

Section WithHandler.
Context {H : Type}.
Variable handler_request : handler_call -> H -> outcome response * H.
Variable urljoin : string -> string -> string.
Variable json_loads : string -> option value.
Variable py_format : value -> string.
Variable cfg : Config.
(** The bound on the redirects followed in one attempt of a fetch. *)
Variable fuel : nat.

Local Abbreviation W := (world H).

(** [s.name] where [s] is expected to be the session.  Of the values of
    the model only the session has the attributes read this way; the
    lookup an instance of objects.py would run in that place is not
    followed. *)
Definition session_attr (s : value) (name : string) : M W unit :=
  match s with
  | VSession =>
      if existsb (String.eqb name) session_attrs then ret tt
      else raise (AttributeError name)
  | _ => raise (AttributeError name)
  end.

(** [Config.__getitem__] *)
Definition config_getitem (key : string) : outcome value :=
  match dict_get key API_PATHS with
  | Some path => Ok (VStr (urljoin (api_url cfg) path))
  | None => Raise (KeyError key)
  end.

(** The store of instances. *)
Definition read_obj (self : nat) : M W obj :=
  w <- get;;
  match heap w !! self with
  | Some o => ret o
  | None => raise (TypeError "no such instance")
  end.

Definition write_attrs (self : nat)
    (f : list (string * value) -> list (string * value)) : M W unit :=
  o <- read_obj self;;
  modify (fun w =>
            set_heap (<[self := {| cls := cls o; attrs := f (attrs o) |}]>
                        (heap w)) w).

(** [object.__new__(c)] *)
Definition alloc (c : klass) : M W nat :=
  w <- get;;
  put (set_heap (heap w ++ [{| cls := c; attrs := [] |}]) w);;
  ret (length (heap w)).

(** [object.__setattr__(self, name, value)]: a property without setter
    and the slots of [object] come before the instance dictionary. *)
Definition object_setattr (self : nat) (name : string) (v : value)
  : M W unit :=
  if String.eqb name "fullname" then
    raise (AttributeError "can't set attribute")
  else if String.eqb name "__class__" then
    raise (TypeError "__class__ must be set to a class")
  else if String.eqb name "__weakref__" then
    raise (AttributeError "__weakref__ is not writable")
  else if String.eqb name "__dict__" then
    match v with
    | VDict items => write_attrs self (fun _ => items)
    | _ => raise (TypeError "__dict__ must be set to a dictionary")
    end
  else write_attrs self (dict_set name v).

(** [six.iteritems(d)] *)
Definition iteritems (d : value) : outcome (list (string * value)) :=
  match d with
  | VDict items => Ok items
  | _ => Raise (AttributeError "iteritems")
  end.

(** The methods of an instance as they run with a given number of
    nested calls left; each body calls the others through [rec], which
    has one call less. *)
Record methods : Type := {
  m_getattr : nat -> string -> M W value;
  m_getattr_hook : nat -> string -> M W value;
  m_setattr : nat -> string -> value -> M W unit;
  m_populate : nat -> value -> bool -> M W bool;
  m_get_json_dict : nat -> M W value;
  m_fullname : nat -> M W value;
  m_init : nat -> value -> value -> bool -> value -> value -> value
           -> M W unit;
  m_construct : klass -> value -> value -> option bool -> value
                -> value -> value -> M W nat;
}.

(** No call left: the interpreter raises
    [RuntimeError: maximum recursion depth exceeded]. *)
Definition exhausted : methods :=
  {| m_getattr := fun _ _ => raise RecursionError;
     m_getattr_hook := fun _ _ => raise RecursionError;
     m_setattr := fun _ _ _ => raise RecursionError;
     m_populate := fun _ _ _ => raise RecursionError;
     m_get_json_dict := fun _ => raise RecursionError;
     m_fullname := fun _ => raise RecursionError;
     m_init := fun _ _ _ _ _ _ _ => raise RecursionError;
     m_construct := fun _ _ _ _ _ _ _ => raise RecursionError |}.

Section Bodies.
Variable rec : methods.

(** [self.name(...)]: the attribute must be the method of the class,
    not a value stored under that name in the instance. *)
Definition bound (self : nat) (name : string) : M W unit :=
  f <- m_getattr rec self name;;
  match f with
  | VBound _ => ret tt
  | _ => raise (TypeError "object is not callable")
  end.

(** [getattr(self, attr)], i.e. [self.attr]: data descriptors of the
    class, the instance dictionary, the other class attributes, and
    at last [__getattr__].  A property whose getter raises
    [AttributeError] falls through to [__getattr__] as well. *)
Definition getattr_body (self : nat) (attr : string) : M W value :=
  if String.eqb attr "fullname" then
    try_except (m_fullname rec self)
      (fun e =>
         match e with
         | AttributeError _ => m_getattr_hook rec self attr
         | _ => raise e
         end)
  else
    o <- read_obj self;;
    if String.eqb attr "__dict__" then ret (VDict (attrs o))
    else if String.eqb attr "__class__" then ret (VBound attr)
    else if String.eqb attr "__weakref__" then ret VNone
    else
      match dict_get attr (attrs o) with
      | Some v => ret v
      | None =>
          if class_attr (cls o) attr then ret (VBound attr)
          else m_getattr_hook rec self attr
      end.

(** [HutomaObject.__getattr__] *)
Definition getattr_hook_body (self : nat) (attr : string)
  : M W value :=
  fetched <- (if negb (String.eqb attr "__setstate__")
              then m_getattr rec self "_has_fetched"
              else ret (VBool true));;
  if negb (String.eqb attr "__setstate__") && negb (truthy fetched)
  then
    bound self "_populate";;
    b <- m_populate rec self VNone true;;
    m_setattr rec self "_has_fetched" (VBool b);;
    m_getattr rec self attr
  else
    o <- read_obj self;;
    raise (AttributeError
             ("'<class 'hutoma.objects." +:+ klass_name (cls o)
                +:+ "'>' has no attribute '" +:+ attr +:+ "'")).

(** [HutomaObject.__setattr__] *)
Definition setattr_body (self : nat) (name : string) (v : value)
  : M W unit :=
  special <- (if truthy v then lift (contains name HUTOMA_KEYS)
              else ret false);;
  v <- (if special : bool then
          if is_bool v then ret v
          else if negb (truthy v) || eq_str v "[deleted]" then ret VNone
          else
            session <- m_getattr rec self "session";;
            o <- m_construct rec AI session v (Some false)
                             VNone VNone VNone;;
            ret (VObject o)
        else ret v);;
  object_setattr self name v.

(** [HutomaObject._get_json_dict] *)
Definition get_json_dict_body (self : nat) : M W value :=
  session <- m_getattr rec self "session";;
  session_attr session "has_scope";;
  uniq <- m_getattr rec self "_uniq";;
  params <- (if truthy uniq then
               uniq <- m_getattr rec self "_uniq";;
               ret (VDict [("uniq", uniq)])
             else ret (VDict []));;
  session <- m_getattr rec self "session";;
  session_attr session "request_json";;
  info_url <- m_getattr rec self "_info_url";;
  match info_url with
  | VStr url =>
      response <- request_json_with handler_request urljoin json_loads
                    py_format cfg None fuel url params VNone true "";;
      lift (getitem response "data")
  | _ => raise (TypeError "the url is not a string")
  end.

(** [HutomaObject._populate] *)
Definition populate_body (self : nat) (json_dict : value)
    (fetch : bool) : M W bool :=
  json_dict <- (match json_dict with
                | VNone =>
                    if fetch then
                      bound self "_get_json_dict";;
                      m_get_json_dict rec self
                    else ret (VDict [])
                | _ => ret json_dict
                end);;
  session <- m_getattr rec self "session";;
  session_attr session "config";;
  (match store_json_result cfg with
   | VBool true => m_setattr rec self "json_dict" json_dict
   | _ => m_setattr rec self "json_dict" VNone
   end);;
  let json_dict :=
    if is_list json_dict then VDict [("_tmp", json_dict)]
    else json_dict in
  items <- lift (iteritems json_dict);;
  for_each items
    (fun item =>
       let name := fst item in
       names <- m_getattr rec self "_underscore_names";;
       underscore <- (if truthy names then
                        names <- m_getattr rec self "_underscore_names";;
                        lift (contains name names)
                      else ret false);;
       let name := if underscore : bool then "_" +:+ name else name in
       m_setattr rec self name (snd item));;
  bound self "_post_populate";;
  ret (truthy json_dict || fetch).

(** The property [fullname] *)
Definition fullname_body (self : nat) : M W value :=
  session <- m_getattr rec self "session";;
  session_attr session "config";;
  o <- read_obj self;;
  match by_object_get (cls o) by_object with
  | None => raise (KeyError (klass_name (cls o)))
  | Some kind =>
      id <- m_getattr rec self "id";;
      ret (VStr (kind +:+ "_" +:+ py_format id))
  end.

(** [HutomaObject.__init__] *)
Definition init_body (self : nat) (hutoma_session json_dict : value)
    (fetch : bool) (info_url underscore_names uniq : value)
  : M W unit :=
  info_url <- (if truthy info_url then ret info_url
               else
                 session_attr hutoma_session "config";;
                 lift (config_getitem "info"));;
  m_setattr rec self "_info_url" info_url;;
  m_setattr rec self "hutoma_session" hutoma_session;;
  m_setattr rec self "_underscore_names" underscore_names;;
  m_setattr rec self "_uniq" uniq;;
  bound self "_populate";;
  b <- m_populate rec self json_dict fetch;;
  m_setattr rec self "_has_fetched" (VBool b).

(** [c(hutoma_session, json_dict, fetch, info_url, underscore_names,
    uniq)]: a new instance, then the [__init__] of the class.
    [AI.__init__] takes the first three only, defaults [fetch] to
    False and hands them to [HutomaObject.__init__]. *)
Definition construct_body (c : klass) (hutoma_session json_dict : value)
    (fetch : option bool) (info_url underscore_names uniq : value)
  : M W nat :=
  self <- alloc c;;
  (match c with
   | AI =>
       match info_url, underscore_names, uniq with
       | VNone, VNone, VNone =>
           m_init rec self hutoma_session json_dict
                  (default false fetch) VNone VNone VNone
       | _, _, _ =>
           raise (TypeError "__init__ got an unexpected argument")
       end
   | _ =>
       m_init rec self hutoma_session json_dict (default true fetch)
              info_url underscore_names uniq
   end);;
  ret self.

End Bodies.

(** The methods with [depth] nested calls left. *)
Fixpoint at_depth (depth : nat) : methods :=
  match depth with
  | O => exhausted
  | S d =>
      let rec := at_depth d in
      {| m_getattr := getattr_body rec;
         m_getattr_hook := getattr_hook_body rec;
         m_setattr := setattr_body rec;
         m_populate := populate_body rec;
         m_get_json_dict := get_json_dict_body rec;
         m_fullname := fullname_body rec;
         m_init := init_body rec;
         m_construct := construct_body rec |}
  end.

(** [cls.from_api_response(hutoma_session, json_dict)] *)
Definition from_api_response (depth : nat) (c : klass)
    (hutoma_session json_dict : value) : M W nat :=
  m_construct (at_depth depth) c hutoma_session json_dict None
              VNone VNone VNone.

(** [HutomaObject.__eq__]; a fullname that was computed is a string. *)
Definition __eq__ (depth : nat) (self : nat) (other : value) : M W bool :=
  match other with
  | VObject o =>
      a <- m_getattr (at_depth depth) self "fullname";;
      b <- m_getattr (at_depth depth) o "fullname";;
      match a, b with
      | VStr x, VStr y => ret (String.eqb x y)
      | _, _ => ret false
      end
  | _ => ret false
  end.

(** [HutomaObject.__ne__] *)
Definition __ne__ (depth : nat) (self : nat) (other : value) : M W bool :=
  b <- __eq__ depth self other;; ret (negb b).

(** [by_kind[kind]]: a key that cannot be hashed is a [TypeError]. *)
Fixpoint hashable (v : value) : bool :=
  match v with
  | VList _ | VDict _ => false
  | VTuple l => forallb hashable l
  | _ => true
  end.

Definition by_kind_getitem (kind : value) : outcome klass :=
  match kind with
  | VStr k =>
      match dict_get k by_kind with
      | Some c => Ok c
      | None => Raise (KeyError k)
      end
  | _ => if hashable kind then Raise (KeyError (py_format kind))
         else Raise (TypeError "unhashable type")
  end.

(** [len(v)] *)
Definition len (v : value) : outcome nat :=
  match v with
  | VStr s => Ok (String.length s)
  | VList l | VTuple l => Ok (length l)
  | VDict items => Ok (length items)
  | _ => Raise (TypeError "object has no len()")
  end.

(** [BaseHutoma._json_hutoma_objecter] *)
Definition _json_hutoma_objecter (depth : nat) (json_data : value)
  : M W value :=
  object_class <-
    try_except
      (kind <- lift (getitem json_data "kind");;
       c <- lift (by_kind_getitem kind);;
       ret (Some c))
      (fun e =>
         match e with
         | KeyError _ => ret None
         | _ => raise e
         end);;
  match object_class with
  | Some object_class =>
      d <- lift (getitem json_data "data");;
      o <- from_api_response depth object_class VSession d;;
      ret (VObject o)
  | None =>
      has <- lift (contains "json" json_data);;
      if has : bool then
        n <- lift (len json_data);;
        when (negb (Nat.eqb n 1))
             (modify (warn_explicit
                        ("Unknown object type: "
                           +:+ py_format json_data)));;
        lift (getitem json_data "json")
      else ret json_data
  end.

(** [BaseHutoma.request_json] *)
Definition request_json (depth : nat) (url : string)
    (params data : value) (as_objects retry_on_error : bool)
    (method : string) : M W value :=
  request_json_with handler_request urljoin json_loads py_format cfg
    (if as_objects then Some (_json_hutoma_objecter depth) else None)
    fuel url params data retry_on_error method.

(** [BaseHutoma.get_content], [HutomaUserKey.get_ai_list] *)
Definition get_content (depth : nat) (url : string) (params : value)
  : M W value :=
  request_json depth url params VNone true true "".

Definition get_ai_list (depth : nat) : M W value :=
  match config_getitem "ai_list" with
  | Ok (VStr url) => get_content depth url VNone
  | Ok _ => raise (TypeError "the url is not a string")
  | Raise e => raise e
  | Diverge => diverge
  end.

End WithHandler.

End Objects.

(** ** Concrete collaborators, for running the model *)

Module Scenario.
Import Py Http Errors Eff Session.

Definition sample_response (status : Z) (body : string) : response :=
  {| status_code := status; resp_url := "https://api.hutoma.com/v1/ai";
     resp_headers := []; resp_cookies := []; text := body |}.



(** A handler that answers by the URL asked for. *)
Definition by_url (table : list (string * response))
    (call : handler_call) (h : unit) : outcome response * unit :=
  match dict_get (url (hc_request call)) table with
  | Some r => (Ok r, tt)
  | None => (Raise (Transport "connection refused"), tt)
  end.


Definition no_json (s : string) : option value := None.

(** A decoder that knows the empty object only. *)
Definition sample_json (s : string) : option value :=
  if String.eqb s "{}" then Some (VDict []) else None.




End Scenario.

(** ** Vocabulary for the statements about the request pipeline *)

Module DispatchSpec.
Import Py Http Errors Eff Session Internal Dispatch.









Section Handler.
Context {H : Type}.
Variable handler_request : handler_call -> H -> outcome response * H.

End Handler.

End DispatchSpec.
Section PyStrFacts.
Import PyStr.

Lemma string_cons_app (c : ascii) (a b : string) :
  String c a +:+ b = String c (a +:+ b).
Proof. reflexivity. Qed.



Lemma string_length_app (a b : string) :
  String.length (a +:+ b) = (String.length a + String.length b)%nat.
Proof. induction a as [|c a IH]; simpl; [reflexivity | now rewrite IH]. Qed.

Lemma substring_all (s : string) : String.substring 0 (String.length s) s = s.
Proof. induction s as [|c s IH]; simpl; [reflexivity | now rewrite IH]. Qed.

Lemma substring_prefix_app (p s : string) :
  String.substring 0 (String.length p) (p +:+ s) = p.
Proof.
  induction p as [|c p IH]; simpl.
  - destruct s; reflexivity.
  - now rewrite IH.
Qed.

Lemma substring_skip_app (p s : string) (n : nat) :
  String.substring (String.length p) n (p +:+ s) = String.substring 0 n s.
Proof. induction p as [|c p IH]; simpl; [reflexivity | exact IH]. Qed.

(** Every string splits at any position not beyond its end. *)
Lemma split_at (s : string) (k : nat) :
  (k <= String.length s)%nat ->
  s = String.substring 0 k s +:+ String.substring k (String.length s - k) s.
Proof.
  revert k; induction s as [|c s IH]; intros k Hk; simpl in *.
  - destruct k; [reflexivity | lia].
  - destruct k as [|k]; simpl.
    + now rewrite substring_all.
    + change (String c s =
              String c (String.substring 0 k s +:+
                        String.substring k (String.length s - k) s)).
      f_equal. apply IH. lia.
Qed.


Lemma endswith_app (p suf : string) : endswith (p +:+ suf) suf = true.
Proof.
  unfold endswith. rewrite string_length_app.
  replace (String.length p + String.length suf - String.length suf)%nat
    with (String.length p) by lia.
  rewrite substring_skip_app, substring_all, String.eqb_refl.
  rewrite andb_true_r. apply Nat.leb_le. lia.
Qed.

Lemma endswith_split (s suf : string) :
  endswith s suf = true ->
  s = drop_last (String.length suf) s +:+ suf.
Proof.
  unfold endswith, drop_last. intros H.
  apply andb_true_iff in H as [Hlen Heq].
  apply Nat.leb_le in Hlen. apply String.eqb_eq in Heq.
  rewrite (split_at s (String.length s - String.length suf)) at 1 by lia.
  f_equal.
  replace (String.length s - (String.length s - String.length suf))%nat
    with (String.length suf) by lia.
  exact Heq.
Qed.



End PyStrFacts.

Section NormalizeUrl.
Import PyStr Helpers.




End NormalizeUrl.

(** * hutoma/errors.py: the error table and the rate-limit exception *)

Section ErrorTable.
Import Py Errors.

Lemma ERROR_MAPPING_unfold :
  ERROR_MAPPING =
  <["RATE_LIMIT" := RateLimitExceeded]>
    (<["NO_AI_FOUND" := NoAIFound]> (<["BAD_USER_KEY" := BadUserKey]> ∅)).
Proof. reflexivity. Qed.

Lemma ERROR_MAPPING_complete (c : exc_class) (t : string) :
  own_ERROR_TYPE c = Some t -> ERROR_MAPPING !! t = Some c.
Proof.
  destruct c; simpl; intros E; inversion E; subst; reflexivity.
Qed.

Lemma ERROR_MAPPING_sound (c : exc_class) (t : string) :
  ERROR_MAPPING !! t = Some c -> own_ERROR_TYPE c = Some t.
Proof.
  rewrite ERROR_MAPPING_unfold. intros E.
  apply lookup_insert_Some in E as [[<- <-]|[_ E]]; [reflexivity|].
  apply lookup_insert_Some in E as [[<- <-]|[_ E]]; [reflexivity|].
  apply lookup_insert_Some in E as [[<- <-]|[_ E]]; [reflexivity|].
  rewrite lookup_empty in E. discriminate E.
Qed.

(** C9: the table sends each declared [ERROR_TYPE] to the class that
    declares it (and holds nothing else); the class found under
    ["RATE_LIMIT"], built from a response mapping whose ['ratelimit'] is
    [v], exposes [sleep_time == v]. *)
Theorem rate_limit_exposes_sleep_time
    (error_type message field v : value)
    (payload : list (string * value))
    (Hv : dict_get "ratelimit" payload = Some v) :
  (forall c t, own_ERROR_TYPE c = Some t <-> ERROR_MAPPING !! t = Some c) /\
  exists c e,
    ERROR_MAPPING !! "RATE_LIMIT" = Some c /\
    new_api_error c error_type message field (VDict payload) = Ok e /\
    class_of e = RateLimitExceeded /\
    sleep_time e = Some v.
Proof.
  split.
  - intros c t. split;
      [apply ERROR_MAPPING_complete | apply ERROR_MAPPING_sound].
  - exists RateLimitExceeded.
    exists (RateLimitError error_type message field (VDict payload) v).
    split; [reflexivity|]. simpl. rewrite Hv. repeat split.
Qed.

Lemma rate_limit_exposes_sleep_time_witness :
  exists c e,
    ERROR_MAPPING !! "RATE_LIMIT" = Some c /\
    new_api_error c (VStr "RATE_LIMIT") (VStr "too fast") (VStr "")
      (VDict [("error", VStr "RATE_LIMIT"); ("ratelimit", VInt 30)]) = Ok e /\
    class_of e = RateLimitExceeded /\
    sleep_time e = Some (VInt 30).
Proof.
  exact (proj2 (rate_limit_exposes_sleep_time
                  (VStr "RATE_LIMIT") (VStr "too fast") (VStr "") (VInt 30)
                  [("error", VStr "RATE_LIMIT"); ("ratelimit", VInt 30)]
                  eq_refl)).
Defined.

End ErrorTable.

(** * hutoma/internal.py: the status mapping *)

Section StatusMapping.
Import Py Http Errors Internal Scenario.

(** C2 (as stated): a status that is neither 2xx nor 403 nor 404 need not
    raise; 304 passes. *)
Lemma status_304_raises_nothing :
  ~ (forall r : response,
       ~ (200 <= status_code r < 300)%Z ->
       status_code r <> 403%Z -> status_code r <> 404%Z ->
       exists message,
         _raise_response_exceptions r
         = Raise (Hutoma (HTTPError HTTPException r message))).
Proof.
  intros claim.
  destruct (claim (sample_response 304 "")) as [m Hm];
    simpl; try lia.
  vm_compute in Hm. discriminate Hm.
Qed.

(** C2 (amended): 403 raises [Forbidden], 404 raises [NotFound], every
    other status from 400 to 599 raises the generic [HTTPException], each
    carrying the response; every status outside 400..599 (the 2xx ones,
    and the 1xx and 3xx ones as well) raises nothing. *)
Theorem status_mapping (r : response) :
  (status_code r = 403%Z ->
   _raise_response_exceptions r
   = Raise (Hutoma (HTTPError Forbidden r "HTTP error"))) /\
  (status_code r = 404%Z ->
   _raise_response_exceptions r
   = Raise (Hutoma (HTTPError NotFound r "HTTP error"))) /\
  ((400 <= status_code r < 600)%Z ->
   status_code r <> 403%Z -> status_code r <> 404%Z ->
   _raise_response_exceptions r
   = Raise (Hutoma (HTTPError HTTPException r "HTTP error"))) /\
  ((status_code r < 400 \/ 600 <= status_code r)%Z ->
   _raise_response_exceptions r = Ok tt).
Proof.
  unfold _raise_response_exceptions, raise_for_status_raises.
  repeat split; intros.
  - rewrite H. reflexivity.
  - rewrite H. reflexivity.
  - destruct (Z.eqb_spec (status_code r) 403); [lia|].
    destruct (Z.eqb_spec (status_code r) 404); [lia|].
    destruct (Z.leb_spec 400 (status_code r)); [|lia].
    destruct (Z.ltb_spec (status_code r) 600); [|lia].
    reflexivity.
  - destruct (Z.eqb_spec (status_code r) 403); [lia|].
    destruct (Z.eqb_spec (status_code r) 404); [lia|].
    destruct (Z.leb_spec 400 (status_code r));
      destruct (Z.ltb_spec (status_code r) 600); try lia; reflexivity.
Qed.

Lemma status_mapping_witness :
  _raise_response_exceptions (sample_response 403 "")
  = Raise (Hutoma (HTTPError Forbidden (sample_response 403 "")
                             "HTTP error")) /\
  _raise_response_exceptions (sample_response 404 "")
  = Raise (Hutoma (HTTPError NotFound (sample_response 404 "")
                             "HTTP error")) /\
  _raise_response_exceptions (sample_response 500 "")
  = Raise (Hutoma (HTTPError HTTPException (sample_response 500 "")
                             "HTTP error")) /\
  _raise_response_exceptions (sample_response 200 "") = Ok tt.
Proof.
  split; [|split; [|split]].
  - apply (proj1 (status_mapping (sample_response 403 ""))). reflexivity.
  - apply (proj1 (proj2 (status_mapping (sample_response 404 "")))).
    reflexivity.
  - apply (proj1 (proj2 (proj2 (status_mapping (sample_response 500 ""))))).
    + simpl. lia.
    + simpl. lia.
    + simpl. lia.
  - apply (proj2 (proj2 (proj2 (status_mapping (sample_response 200 ""))))).
    simpl. lia.
Defined.

End StatusMapping.

(** * hutoma/__init__.py: redirects, retries and the decoded body *)

Section DispatchFacts.
Import Py Http Errors Eff Session Internal Dispatch DispatchSpec.

Context {H : Type}.
Variable handler_request : handler_call -> H -> outcome response * H.
Variable urljoin : string -> string -> string.
Variable json_loads : string -> option value.
Variable py_format : value -> string.
Variable cfg : Config.


Lemma url_set_url (u : string) (req : Http.request) : url (set_url u req) = u.
Proof. reflexivity. Qed.









Section OneRequest.
Variable timeout : Q.
Variable key_items : list value.
Variable kwargs : bool * Z * Z.

Local Abbreviation call_of := (make_call cfg timeout key_items kwargs).
Local Abbreviation loop :=
  (redirect_loop handler_request urljoin py_format cfg timeout
                 key_items kwargs).
Local Abbreviation attempt_ :=
  (attempt handler_request urljoin py_format cfg timeout
           key_items kwargs).
Local Abbreviation retry_ :=
  (retry_loop handler_request urljoin py_format cfg timeout
              key_items kwargs).










End OneRequest.

Local Abbreviation request_ :=
  (_request handler_request urljoin py_format cfg).




End DispatchFacts.

Section DispatchExamples.
Import Py Http Errors Eff Session Internal Dispatch DispatchSpec Scenario.



End DispatchExamples.

(** * The entities of the response body *)

Section Entities.
Import Py Http Errors Eff Session Internal Dispatch DispatchSpec.

Lemma span_group_app (s : string) :
  s = fst (span_group s) +:+ snd (span_group s).
Proof.
  induction s as [|c s IH]; [reflexivity|]. simpl.
  destruct (Ascii.eqb c ";"); [reflexivity|].
  cbn [fst snd]. rewrite string_cons_app. f_equal. exact IH.
Qed.

(** A match consumes at least three characters. *)
Lemma match_entity_shorter (s g after : string) :
  match_entity s = Some (g, after) ->
  (String.length after + 2 < String.length s)%nat.
Proof.
  destruct s as [|c rest]; [discriminate|]. simpl.
  destruct (Ascii.eqb c "&"); [|discriminate].
  pose proof (span_group_app rest) as Hs.
  destruct (span_group rest) as [a b]. simpl in Hs.
  destruct a as [|g0 gs]; [discriminate|].
  destruct b as [|semi after']; [discriminate|].
  intros E. inversion E; subst.
  rewrite string_length_app. simpl. lia.
Qed.


(** It ends: the steps [re_sub] grants are enough. *)
Lemma re_sub_from_total (repl : string -> outcome string) :
  (forall g, repl g <> Diverge) ->
  forall (n : nat) (s : string),
    (String.length s <= n)%nat -> re_sub_from n repl s <> Diverge.
Proof.
  intros Hrepl. induction n as [|n IH]; intros s Hn.
  - destruct s; [discriminate | simpl in Hn; lia].
  - destruct s as [|c rest]; [discriminate|].
    cbn [re_sub_from].
    destruct (match_entity (String c rest)) as [[g after]|] eqn:E.
    + apply match_entity_shorter in E. simpl in E, Hn.
      specialize (Hrepl g). specialize (IH after ltac:(lia)).
      destruct (repl g); [|discriminate|contradiction].
      destruct (re_sub_from n repl after);
        [discriminate|discriminate|contradiction].
    + simpl in Hn. specialize (IH rest ltac:(lia)).
      destruct (re_sub_from n repl rest);
        [discriminate|discriminate|contradiction].
Qed.








End Entities.

Section DecodedBody.
Import Py Http Errors Eff Session Internal Dispatch DispatchSpec.

Context {H : Type}.
Variable handler_request : handler_call -> H -> outcome response * H.
Variable urljoin : string -> string -> string.
Variable py_format : value -> string.
Variable cfg : Config.

Local Abbreviation request_ :=
  (_request handler_request urljoin py_format cfg).



End DecodedBody.

Section DecodedBodyExamples.
Import Py Http Errors Eff Session Internal Dispatch DispatchSpec Scenario.



End DecodedBodyExamples.
